(** * Jobly: the partial-update SQL builder and the jobs model

    A shallow embedding of [models/job.js] and of the [sqlForPartialUpdate]
    helper it uses.  JavaScript values are a small inductive type with their
    truthiness; plain objects are association lists in key iteration order;
    the asynchronous database calls are a small free monad [prog] whose
    [Query] node carries the SQL text and the bound parameter list and
    continues with the returned rows. *)

From Stdlib Require Import String Ascii List ZArith NArith Arith Lia Bool.
Import ListNotations.
Open Scope string_scope.

(** ** Decimal printing, as JavaScript's number-to-string conversion *)

Fixpoint digits_N (fuel : nat) (n : N) (acc : string) : string :=
  match fuel with
  | O => acc
  | S f =>
      let acc' := String (ascii_of_N (48 + N.modulo n 10)) acc in
      if N.ltb n 10 then acc' else digits_N f (N.div n 10) acc'
  end.

Definition string_of_N (n : N) : string :=
  digits_N (S (N.to_nat (N.size n))) n "".

Definition string_of_nat (n : nat) : string := string_of_N (N.of_nat n).

Definition string_of_Z (z : Z) : string :=
  if Z.ltb z 0 then "-" ++ string_of_N (Z.to_N (Z.opp z))
  else string_of_N (Z.to_N z).

Definition dq : string := String (ascii_of_nat 34) "".
Definition nl : string := String (ascii_of_nat 10) "".

(** ** JavaScript values *)

(** Numbers are integers here (salaries, ids); NaN is not modelled. *)
Inductive jsval : Type :=
| JUndefined
| JNull
| JBool (b : bool)
| JNum (z : Z)
| JStr (s : string).

(** JavaScript truthiness, as used by [if (x)] and [!x]. *)
Definition truthy (v : jsval) : bool :=
  match v with
  | JUndefined | JNull => false
  | JBool b => b
  | JNum z => negb (Z.eqb z 0)
  | JStr s => negb (String.eqb s "")
  end.

(** Template-literal interpolation [`${v}`]. *)
Definition js_to_string (v : jsval) : string :=
  match v with
  | JUndefined => "undefined"
  | JNull => "null"
  | JBool true => "true"
  | JBool false => "false"
  | JNum z => string_of_Z z
  | JStr s => s
  end.

(** A plain object, its own keys in iteration order. *)
Definition jsobj := list (string * jsval).

Definition obj_keys (o : jsobj) : list string := map fst o.
Definition obj_values (o : jsobj) : list jsval := map snd o.

(** Property access [o.k]: [undefined] when the key is absent. *)
Fixpoint obj_get (o : jsobj) (k : string) : jsval :=
  match o with
  | [] => JUndefined
  | (k', v) :: o' => if String.eqb k k' then v else obj_get o' k
  end.

(** ** Errors and database interaction *)

Inductive expressError : Type :=
| BadRequestError (msg : string)
| NotFoundError (msg : string).

(** An asynchronous computation: it returns, throws, or issues
    [db.query(sql, values)] and continues with the returned rows. *)
Inductive prog (A : Type) : Type :=
| Ret (a : A)
| Throw (e : expressError)
| Query (sql : string) (vals : list jsval) (k : list jsobj -> prog A).

Arguments Ret {A} a.
Arguments Throw {A} e.
Arguments Query {A} sql vals k.

(** ** The partial-update builder *)

(** A field map [jsToSql]: logical name to column name. *)
Definition fieldmap := list (string * string).

Fixpoint fm_lookup (m : fieldmap) (k : string) : option string :=
  match m with
  | [] => None
  | (k', c) :: m' => if String.eqb k k' then Some c else fm_lookup m' k
  end.

Definition column_of (m : fieldmap) (k : string) : string :=
  match fm_lookup m k with
  | Some c => c
  | None => k
  end.

Definition set_fragment (col : string) (pos : nat) : string :=
  dq ++ col ++ dq ++ "=$" ++ string_of_nat pos.

Fixpoint mapi_from {A B : Type} (f : nat -> A -> B) (i : nat) (l : list A)
  : list B :=
  match l with
  | [] => []
  | x :: l' => f i x :: mapi_from f (S i) l'
  end.

(** Modelled from the spec: [sqlForPartialUpdate] of [helpers/sql.js], whose
    source is not part of the sources at hand (only its test is).  An empty
    payload fails with BadRequest before any text is produced; otherwise each
    key, in iteration order, gives ["<column>"=$<position>] with the column
    taken from the field map or, when absent there, the key itself; the
    fragments are joined with [", "] and the values are the payload's values
    in the same order. *)
Definition sqlForPartialUpdate (dataToUpdate : jsobj) (jsToSql : fieldmap)
  : expressError + (string * list jsval) :=
  match obj_keys dataToUpdate with
  | [] => inl (BadRequestError "No data")
  | keys =>
      let cols := mapi_from
                    (fun idx colName => set_fragment (column_of jsToSql colName) idx)
                    1 keys in
      inr (String.concat ", " cols, obj_values dataToUpdate)
  end.

(** ** [Job.findAll] *)

(** The local state of the filter construction: [filters], [values], [idx]. *)
Record filter_state : Type := {
  fs_filters : list string;
  fs_values : list jsval;
  fs_idx : nat
}.

Definition push_filter (st : filter_state) (frag : string -> string) (v : jsval)
  : filter_state :=
  {| fs_filters := app st.(fs_filters) [frag (string_of_nat st.(fs_idx))];
     fs_values := app st.(fs_values) [v];
     fs_idx := st.(fs_idx) + 1 |}.

(** The three [if] blocks of [findAll], in source order. *)
Definition findAll_filters (title minSalary hasEquity : jsval)
  : list string * list jsval :=
  let st0 := {| fs_filters := []; fs_values := []; fs_idx := 1 |} in
  let st1 := if truthy title
             then push_filter st0 (fun i => "LOWER(title) LIKE $" ++ i)
                    (JStr ("%" ++ js_to_string title ++ "%"))
             else st0 in
  let st2 := if truthy minSalary
             then push_filter st1 (fun i => "salary >= $" ++ i) minSalary
             else st1 in
  let st3 := if truthy hasEquity
             then push_filter st2 (fun i => "equity !=  $" ++ i) (JStr "0")
             else st2 in
  (st3.(fs_filters), st3.(fs_values)).

Definition findAll_select_cols : string :=
  "SELECT title," ++ nl ++
  "                salary," ++ nl ++
  "                equity," ++ nl ++
  "                company_handle AS " ++ dq ++ "companyHandle" ++ dq ++ nl.

(** The statement of the filtered branch, around [filters.join(" AND ")]. *)
Definition findAll_where_sql (clause : string) : string :=
  findAll_select_cols ++
  "        FROM jobs" ++ nl ++
  "        WHERE (" ++ clause ++ ")" ++ nl ++
  "        ORDER BY title".

(** The statement of the unfiltered branch. *)
Definition findAll_all_sql : string :=
  findAll_select_cols ++
  "         FROM jobs" ++ nl ++
  "         ORDER BY title".

(** [findAll(title=null, minSalary=null, hasEquity=null)]; the unfiltered
    branch passes no parameter list, which the driver treats as an empty one,
    and its [console.log] is not modelled. *)
Definition findAll (title minSalary hasEquity : jsval) : prog (list jsobj) :=
  let '(filters, values) := findAll_filters title minSalary hasEquity in
  if Nat.ltb 0 (length filters)
  then Query (findAll_where_sql (String.concat " AND " filters)) values
             (fun rows => Ret rows)
  else Query findAll_all_sql [] (fun rows => Ret rows).

(** ** [Job.update] *)

(** The [data] argument: [undefined], [null] or an object. *)
Inductive data_arg : Type :=
| DUndefined
| DNull
| DObj (o : jsobj).

Definition job_jsToSql : fieldmap := [("companyHandle", "company_handle")].

Definition update_sql (setCols idVarIdx : string) : string :=
  "UPDATE jobs " ++ nl ++
  "                      SET " ++ setCols ++ " " ++ nl ++
  "                      WHERE id = " ++ idVarIdx ++ " " ++ nl ++
  "                      RETURNING id," ++ nl ++
  "                                title," ++ nl ++
  "                                salary," ++ nl ++
  "                                equity," ++ nl ++
  "                                company_handle AS " ++ dq ++ "companyHandle" ++ dq.

(** The part of [update] after its two guards. *)
Definition update_body (id : jsval) (data : jsobj) : prog jsobj :=
  match sqlForPartialUpdate data job_jsToSql with
  | inl e => Throw e
  | inr (setCols, values) =>
      let idVarIdx := "$" ++ string_of_nat (length values + 1) in
      let querySql := update_sql setCols idVarIdx in
      Query querySql (app values [id])
        (fun rows =>
           match rows with
           | [] => Throw (NotFoundError ("No job with id of " ++ js_to_string id))
           | job :: _ => Ret job
           end)
  end.

Definition update (id : jsval) (data : data_arg) : prog jsobj :=
  match data with
  | DUndefined | DNull => Throw (BadRequestError "Data is required")
  | DObj o =>
      if truthy (obj_get o "id") || truthy (obj_get o "companyHandle")
      then Throw (BadRequestError "Job id and companyHandle can not be changed")
      else update_body id o
  end.

(** ** [Job.create], [Job.get] and [Job.remove] *)

Definition create_check_sql : string :=
  "SELECT title" ++ nl ++
  "           FROM jobs" ++ nl ++
  "           WHERE company_handle = $1" ++ nl ++
  "           AND title = $2".

Definition create_insert_sql : string :=
  "INSERT INTO jobs" ++ nl ++
  "           (title, salary, equity, company_handle)" ++ nl ++
  "           VALUES ($1, $2, $3, $4)" ++ nl ++
  "           RETURNING id, title, salary, equity, company_handle AS " ++
  dq ++ "companyHandle" ++ dq.

(** [create({ title, salary, equity, companyHandle })]: the four properties
    are read off the argument ([undefined] when missing); the result is
    [result.rows[0]], [None] standing for [undefined]. *)
Definition create (data : jsobj) : prog (option jsobj) :=
  let title := obj_get data "title" in
  let salary := obj_get data "salary" in
  let equity := obj_get data "equity" in
  let companyHandle := obj_get data "companyHandle" in
  Query create_check_sql [companyHandle; title]
    (fun dup_rows =>
       match dup_rows with
       | _ :: _ =>
           Throw (BadRequestError ("Duplicate job: " ++ js_to_string companyHandle ++
                                   ", " ++ js_to_string title))
       | [] =>
           Query create_insert_sql [title; salary; equity; companyHandle]
             (fun rows => Ret (hd_error rows))
       end).

Definition get_job_sql : string :=
  "SELECT id," ++ nl ++
  "                  title," ++ nl ++
  "                  salary," ++ nl ++
  "                  equity," ++ nl ++
  "                  company_handle AS company" ++ nl ++
  "           FROM jobs" ++ nl ++
  "           WHERE id = $1".

Definition get_company_sql : string :=
  "SELECT handle, " ++ nl ++
  "                  name, " ++ nl ++
  "                  description, " ++ nl ++
  "                  num_employees," ++ nl ++
  "                  logo_url" ++ nl ++
  "          FROM companies " ++ nl ++
  "          WHERE handle = $1".

(** What [get] returns: the job row whose [company] property has been
    overwritten with [companyRes.rows[0]] ([None] for [undefined]).
    [gj_row] is the row as selected; the returned object reads [company]
    from [gj_company] and every other property from [gj_row]. *)
Record got_job : Type := {
  gj_row : jsobj;
  gj_company : option jsobj
}.

Definition get (id : jsval) : prog got_job :=
  Query get_job_sql [id]
    (fun job_rows =>
       match job_rows with
       | [] => Throw (NotFoundError ("No job with id of " ++ js_to_string id))
       | job :: _ =>
           Query get_company_sql [obj_get job "company"]
             (fun company_rows =>
                Ret {| gj_row := job; gj_company := hd_error company_rows |})
       end).

Definition remove_sql : string :=
  "DELETE" ++ nl ++
  "           FROM jobs" ++ nl ++
  "           WHERE id = $1" ++ nl ++
  "           RETURNING id".

(** [remove(id)]: returns [undefined] ([tt]) or throws NotFound. *)
Definition remove (id : jsval) : prog unit :=
  Query remove_sql [id]
    (fun rows =>
       match rows with
       | [] => Throw (NotFoundError ("No job: " ++ js_to_string id))
       | _ :: _ => Ret tt
       end).

(** ** Running a model against a database *)

(** A database answers each statement with its rows.  A failing [db.query]
    (whose rejection propagates out of the model's functions unchanged) is
    not represented: the properties below are conditioned on the rows a
    statement returns. *)
Definition database := string -> list jsval -> list jsobj.

(** The outcome of a run (a thrown error or the returned value) and the
    statements issued, in order, with their bound parameters. *)
Fixpoint run {A : Type} (db : database) (p : prog A)
  : (expressError + A) * list (string * list jsval) :=
  match p with
  | Ret a => (inr a, [])
  | Throw e => (inl e, [])
  | Query sql vals k =>
      let '(r, tr) := run db (k (db sql vals)) in (r, (sql, vals) :: tr)
  end.

Definition ex_payload : jsobj :=
  [("numEmployees", JNum 5); ("description", JStr "Description 3")].
Definition ex_fieldmap : fieldmap :=
  [("numEmployees", "num_employees"); ("description", "description")].

Definition ex_new_job : jsobj :=
  [("title", JStr "New Job"); ("salary", JNum 60000); ("equity", JStr "0.1");
   ("companyHandle", JStr "c1")].

(** A database with no rows. *)
Definition ex_db_empty : database := fun _ _ => [].

(** A database holding one job [New Job] of [c1]: the duplicate check finds it. *)
Definition ex_db_dup : database :=
  fun sql _ => if String.eqb sql create_check_sql then [[("title", JStr "New Job")]] else [].

Definition ex_job_row : jsobj :=
  [("id", JNum 1); ("title", JStr "j1"); ("salary", JNum 100000);
   ("equity", JStr "0"); ("company", JStr "c1")].

(** A database whose job query returns [ex_job_row]. *)
Definition ex_db_job : database :=
  fun sql _ => if String.eqb sql get_job_sql then [ex_job_row] else [].

Definition ex_payload_ch : jsobj := [("title", JStr "New"); ("companyHandle", JStr "")].

Example ex_set_clause :
  sqlForPartialUpdate ex_payload ex_fieldmap =
  inr (dq ++ "num_employees" ++ dq ++ "=$1, " ++ dq ++ "description" ++ dq ++ "=$2",
       [JNum 5; JStr "Description 3"]).
Proof. reflexivity. Qed.

Example ex_filters :
  findAll_filters (JStr "2") (JNum 200000) JNull =
  (["LOWER(title) LIKE $1"; "salary >= $2"], [JStr "%2%"; JNum 200000]).
Proof. reflexivity. Qed.

(** ** Lemmas on the builder *)

Lemma mapi_from_length {A B : Type} (f : nat -> A -> B) (l : list A) :
  forall i, length (mapi_from f i l) = length l.
Proof. induction l as [|x l IH]; intro i; simpl; [reflexivity | now rewrite IH]. Qed.

Lemma mapi_from_nth_error {A B : Type} (f : nat -> A -> B) (l : list A) :
  forall i n, nth_error (mapi_from f i l) n = option_map (f (i + n)) (nth_error l n).
Proof.
  induction l as [|x l IH]; intros i n.
  - destruct n; reflexivity.
  - destruct n as [|n]; simpl.
    + now rewrite Nat.add_0_r.
    + rewrite IH. now rewrite Nat.add_succ_r.
Qed.

Lemma nth_error_map_fst {A B : Type} (l : list (A * B)) i a b :
  nth_error l i = Some (a, b) -> nth_error (map fst l) i = Some a.
Proof. intro H. now rewrite nth_error_map, H. Qed.

Lemma nth_error_map_snd {A B : Type} (l : list (A * B)) i a b :
  nth_error l i = Some (a, b) -> nth_error (map snd l) i = Some b.
Proof. intro H. now rewrite nth_error_map, H. Qed.

(** The fragments the builder joins, for a non-empty payload. *)
Definition set_fragments (p : jsobj) (m : fieldmap) : list string :=
  mapi_from (fun idx colName => set_fragment (column_of m colName) idx) 1 (obj_keys p).

Lemma sqlForPartialUpdate_nonempty (p : jsobj) (m : fieldmap) :
  p <> [] ->
  sqlForPartialUpdate p m = inr (String.concat ", " (set_fragments p m), map snd p).
Proof.
  intro Hp. unfold sqlForPartialUpdate, set_fragments, obj_keys, obj_values.
  destruct p as [|[k v] p]; [congruence | reflexivity].
Qed.

Lemma set_fragments_nth (p : jsobj) (m : fieldmap) i k v :
  nth_error p i = Some (k, v) ->
  nth_error (set_fragments p m) i = Some (set_fragment (column_of m k) (S i)).
Proof.
  intro H. unfold set_fragments, obj_keys.
  rewrite mapi_from_nth_error, (nth_error_map_fst _ _ _ _ H). reflexivity.
Qed.

(** ** Claims about [sqlForPartialUpdate] *)

(** C1: for a non-empty payload [p], the builder returns the join with
    [", "] of exactly [|p|] fragments and a value list of length [|p|]; the
    [i]-th fragment (from 0) is ["<column>"=$<i+1>] for the [i]-th key and the
    [i]-th value is that key's value. *)
Theorem sqlForPartialUpdate_positions (p : jsobj) (m : fieldmap) :
  p <> [] ->
  exists frags : list string,
    sqlForPartialUpdate p m = inr (String.concat ", " frags, map snd p) /\
    length frags = length p /\
    length (map snd p) = length p /\
    (forall i k v, nth_error p i = Some (k, v) ->
       nth_error frags i = Some (set_fragment (column_of m k) (S i)) /\
       nth_error (map snd p) i = Some v).
Proof.
  intro Hp. exists (set_fragments p m). split; [now apply sqlForPartialUpdate_nonempty|].
  split; [unfold set_fragments, obj_keys; now rewrite mapi_from_length, length_map|].
  split; [apply length_map|].
  intros i k v H. split; [exact (set_fragments_nth _ _ _ _ _ H) | exact (nth_error_map_snd _ _ k v H)].
Qed.

Lemma sqlForPartialUpdate_positions_witness :
  ex_payload <> [] /\
  exists frags : list string,
    sqlForPartialUpdate ex_payload ex_fieldmap =
      inr (String.concat ", " frags, map snd ex_payload) /\
    length frags = length ex_payload /\
    length (map snd ex_payload) = length ex_payload /\
    (forall i k v, nth_error ex_payload i = Some (k, v) ->
       nth_error frags i = Some (set_fragment (column_of ex_fieldmap k) (S i)) /\
       nth_error (map snd ex_payload) i = Some v).
Proof.
  split; [discriminate|].
  apply (sqlForPartialUpdate_positions ex_payload ex_fieldmap). discriminate.
Defined.

(** C3: an empty payload makes the builder fail with BadRequest for every
    field map, with no SQL text produced; [Job.update] with an empty payload
    throws BadRequest without issuing any statement. *)
Theorem sqlForPartialUpdate_empty_bad_request :
  (forall m : fieldmap,
     sqlForPartialUpdate [] m = inl (BadRequestError "No data")) /\
  (forall id : jsval,
     update id (DObj []) = Throw (BadRequestError "No data")).
Proof. split; intros; reflexivity. Qed.

(** C8: a payload key absent from the field map is emitted as its own name,
    quoted as mapped columns are; [Job.update]'s field map only maps
    [companyHandle], so [title], [salary] and [equity] are their own column. *)
Theorem sqlForPartialUpdate_identity_fallback (p : jsobj) (m : fieldmap) i k v :
  nth_error p i = Some (k, v) ->
  fm_lookup m k = None ->
  exists frags : list string,
    sqlForPartialUpdate p m = inr (String.concat ", " frags, map snd p) /\
    nth_error frags i = Some (dq ++ k ++ dq ++ "=$" ++ string_of_nat (S i)) /\
    (forall k' c, fm_lookup m k' = Some c ->
       set_fragment (column_of m k') (S i) = dq ++ c ++ dq ++ "=$" ++ string_of_nat (S i)) /\
    (column_of job_jsToSql "title" = "title" /\
     column_of job_jsToSql "salary" = "salary" /\
     column_of job_jsToSql "equity" = "equity" /\
     column_of job_jsToSql "companyHandle" = "company_handle").
Proof.
  intros Hi Hm. exists (set_fragments p m).
  split.
  { apply sqlForPartialUpdate_nonempty. intros ->. destruct i; discriminate. }
  split.
  { rewrite (set_fragments_nth _ _ _ _ _ Hi). unfold set_fragment, column_of.
    now rewrite Hm. }
  split.
  { intros k' c Hc. unfold set_fragment, column_of. now rewrite Hc. }
  repeat split.
Qed.

Lemma sqlForPartialUpdate_identity_fallback_witness :
  nth_error [("title", JStr "New"); ("salary", JNum 999999)] 1 = Some ("salary", JNum 999999) /\
  fm_lookup job_jsToSql "salary" = None /\
  exists frags : list string,
    sqlForPartialUpdate [("title", JStr "New"); ("salary", JNum 999999)] job_jsToSql =
      inr (String.concat ", " frags, map snd [("title", JStr "New"); ("salary", JNum 999999)]) /\
    nth_error frags 1 = Some (dq ++ "salary" ++ dq ++ "=$" ++ string_of_nat 2) /\
    (forall k' c, fm_lookup job_jsToSql k' = Some c ->
       set_fragment (column_of job_jsToSql k') 2 = dq ++ c ++ dq ++ "=$" ++ string_of_nat 2) /\
    (column_of job_jsToSql "title" = "title" /\
     column_of job_jsToSql "salary" = "salary" /\
     column_of job_jsToSql "equity" = "equity" /\
     column_of job_jsToSql "companyHandle" = "company_handle").
Proof.
  split; [reflexivity|]. split; [reflexivity|].
  apply (sqlForPartialUpdate_identity_fallback _ _ 1 "salary" (JNum 999999));
    reflexivity.
Defined.

(** ** Lemmas on the filter construction *)

Lemma string_app_assoc (a b c : string) : (a ++ b) ++ c = a ++ (b ++ c).
Proof. induction a as [|x a IH]; simpl; [reflexivity | now rewrite IH]. Qed.

(** The criteria of [findAll], in the order of its [if] blocks. *)
Inductive criterion : Type :=
| TextContains
| NumericThreshold
| BooleanFlag.

(** The criteria whose argument is truthy, in source order. *)
Definition active_criteria (title minSalary hasEquity : jsval) : list criterion :=
  app (if truthy title then [TextContains] else [])
      (app (if truthy minSalary then [NumericThreshold] else [])
           (if truthy hasEquity then [BooleanFlag] else [])).

(** The fragment each criterion pushes, with its placeholder number. *)
Definition criterion_fragment (c : criterion) (i : string) : string :=
  match c with
  | TextContains => "LOWER(title) LIKE $" ++ i
  | NumericThreshold => "salary >= $" ++ i
  | BooleanFlag => "equity !=  $" ++ i
  end.

Ltac case_truthy t s e :=
  destruct (truthy t) eqn:?; destruct (truthy s) eqn:?; destruct (truthy e) eqn:?.

(** ** Claims about [Job.findAll] *)

(** C2 (as stated): a present [minSalary] of [0] is neither absent nor
    [false], yet no predicate is emitted for it. *)
Lemma findAll_filters_zero_threshold_dropped :
  JNum 0 <> JNull /\ JNum 0 <> JUndefined /\ JNum 0 <> JBool false /\
  findAll_filters JNull (JNum 0) JNull = ([], []).
Proof. repeat split; try discriminate; reflexivity. Qed.

(** C2 (amended): the number of predicates is the number of truthy filter
    arguments, as many values are bound, and the predicates come in the order
    text-contains, numeric-threshold, boolean-flag among those, the [i]-th
    (from 0) numbered [$<i+1>]. *)
Theorem findAll_filters_count_order (t s e : jsval) :
  let '(fs, vs) := findAll_filters t s e in
  length fs = length (active_criteria t s e) /\
  length vs = length fs /\
  (forall i c, nth_error (active_criteria t s e) i = Some c ->
     nth_error fs i = Some (criterion_fragment c (string_of_nat (S i)))).
Proof.
  unfold findAll_filters, active_criteria; cbv zeta.
  case_truthy t s e; (split; [reflexivity | split; [reflexivity |]]);
    intros i c H; destruct i as [|[|[|[|i]]]]; cbn in H; try discriminate;
    injection H as <-; reflexivity.
Qed.

(** C4 (as stated): a present [title] that is the empty string is not
    [null], yet no text-contains predicate and no value are emitted for it. *)
Lemma findAll_filters_empty_title_dropped :
  JStr "" <> JNull /\ JStr "" <> JUndefined /\
  findAll_filters (JStr "") JNull JNull = ([], []).
Proof. repeat split; try discriminate; reflexivity. Qed.

(** A non-empty run of spaces. *)
Fixpoint blanks (s : string) : bool :=
  match s with
  | EmptyString => false
  | String c EmptyString => Ascii.eqb c " "%char
  | String c s' => Ascii.eqb c " "%char && blanks s'
  end.

(** The filters and values of [findAll] in closed form. *)
Definition filters_closed (t s e : jsval) : list string * list jsval :=
  (app (if truthy t then ["LOWER(title) LIKE $1"] else [])
     (app (if truthy s
           then ["salary >= $" ++ string_of_nat (1 + Nat.b2n (truthy t))] else [])
          (if truthy e
           then ["equity !=  $" ++
                   string_of_nat (1 + Nat.b2n (truthy t) + Nat.b2n (truthy s))]
           else [])),
   app (if truthy t then [JStr ("%" ++ js_to_string t ++ "%")] else [])
     (app (if truthy s then [s] else [])
          (if truthy e then [JStr "0"] else []))).

Lemma findAll_filters_closed (t s e : jsval) :
  findAll_filters t s e = filters_closed t s e.
Proof.
  unfold findAll_filters, filters_closed; cbv zeta. case_truthy t s e; reflexivity.
Qed.

(** C4 (amended): a truthy [title] gives exactly [LOWER(title) LIKE $<n>]
    bound to [%title%], a truthy [minSalary] gives exactly [salary >= $<n>]
    bound to the threshold unchanged, and a truthy [hasEquity] gives
    [equity], [!=] and [$<n>] separated by blanks, bound to the string ["0"];
    on [("2", 200000, null)] the statement carries
    [(LOWER(title) LIKE $1 AND salary >= $2)] with values [["%2%", 200000]]. *)
Theorem findAll_filter_fragments (t s e : jsval) :
  (exists ws, blanks ws = true /\
   findAll_filters t s e =
   (app (if truthy t then ["LOWER(title) LIKE $1"] else [])
      (app (if truthy s
            then ["salary >= $" ++ string_of_nat (1 + Nat.b2n (truthy t))] else [])
           (if truthy e
            then ["equity !=" ++ ws ++ "$" ++
                    string_of_nat (1 + Nat.b2n (truthy t) + Nat.b2n (truthy s))]
            else [])),
    app (if truthy t then [JStr ("%" ++ js_to_string t ++ "%")] else [])
      (app (if truthy s then [s] else [])
           (if truthy e then [JStr "0"] else [])))) /\
  findAll (JStr "2") (JNum 200000) JNull =
    Query (findAll_where_sql "LOWER(title) LIKE $1 AND salary >= $2")
          [JStr "%2%"; JNum 200000] (fun rows => Ret rows) /\
  String.index 0 "WHERE (LOWER(title) LIKE $1 AND salary >= $2)"
    (findAll_where_sql "LOWER(title) LIKE $1 AND salary >= $2") <> None.
Proof.
  split; [| split; [reflexivity |]].
  - exists "  ". split; [reflexivity|].
    rewrite findAll_filters_closed. reflexivity.
  - intro H. vm_compute in H. discriminate.
Qed.

(** C5: with every criterion absent (falsy) no predicate and no value is
    produced and the statement issued has no [WHERE]; otherwise the
    predicates, joined with [" AND "], form one parenthesised group after the
    only [WHERE] of the statement. *)
Theorem findAll_where_composition (t s e : jsval) :
  let '(fs, vs) := findAll_filters t s e in
  (fs = [] <-> (truthy t || truthy s || truthy e) = false) /\
  (fs = [] ->
     vs = [] /\
     findAll t s e = Query findAll_all_sql [] (fun rows => Ret rows) /\
     String.index 0 "WHERE" findAll_all_sql = None) /\
  (fs <> [] ->
     findAll t s e =
       Query (findAll_where_sql (String.concat " AND " fs)) vs (fun rows => Ret rows)) /\
  (forall c, exists pre post,
     findAll_where_sql c = pre ++ "WHERE (" ++ c ++ ")" ++ post /\
     String.index 0 "WHERE" pre = None /\ String.index 0 "WHERE" post = None).
Proof.
  assert (Hwhere : forall c, exists pre post,
     findAll_where_sql c = pre ++ "WHERE (" ++ c ++ ")" ++ post /\
     String.index 0 "WHERE" pre = None /\ String.index 0 "WHERE" post = None).
  { intro c.
    exists (findAll_select_cols ++ "        FROM jobs" ++ nl ++ "        ").
    exists (nl ++ "        ORDER BY title").
    split; [| split; vm_compute; reflexivity].
    unfold findAll_where_sql. rewrite !string_app_assoc. reflexivity. }
  unfold findAll. rewrite findAll_filters_closed. unfold filters_closed.
  case_truthy t s e; cbn [truthy orb app Nat.b2n].
  all: split; [split; intro H; try discriminate; reflexivity |].
  all: split; [intro H; (discriminate || (split; [reflexivity | split; [reflexivity | vm_compute; reflexivity]])) |].
  all: split; [intro H; try (exfalso; now apply H); reflexivity | exact Hwhere].
Qed.

(** C6: [hasEquity = false] gives the same filters, values and statement as
    an absent [hasEquity], whatever the other two arguments. *)
Theorem findAll_false_flag_is_absent (t s : jsval) :
  findAll_filters t s (JBool false) = findAll_filters t s JNull /\
  findAll_filters t s (JBool false) = findAll_filters t s JUndefined /\
  findAll t s (JBool false) = findAll t s JNull.
Proof. repeat split; reflexivity. Qed.

(** ** Claims about [Job.update] *)

Lemma update_passes_guards (id : jsval) (o : jsobj) :
  (truthy (obj_get o "id") || truthy (obj_get o "companyHandle")) = false ->
  update id (DObj o) = update_body id o.
Proof. intro H. unfold update. now rewrite H. Qed.

Lemma update_body_nonempty (id : jsval) (o : jsobj) :
  o <> [] ->
  update_body id o =
    Query (update_sql (String.concat ", " (set_fragments o job_jsToSql))
                      ("$" ++ string_of_nat (length (map snd o) + 1)))
          (app (map snd o) [id])
          (fun rows =>
             match rows with
             | [] => Throw (NotFoundError ("No job with id of " ++ js_to_string id))
             | job :: _ => Ret job
             end).
Proof.
  intro Ho. unfold update_body. now rewrite sqlForPartialUpdate_nonempty.
Qed.

(** C7: for a non-empty payload that passes the guards, [Job.update] numbers
    the id placeholder [$<|values|+1>], right after the SET clause's
    parameters, and binds the id last, after the builder's values. *)
Theorem update_id_placeholder (id : jsval) (o : jsobj) :
  o <> [] ->
  (truthy (obj_get o "id") || truthy (obj_get o "companyHandle")) = false ->
  exists setCols values k,
    sqlForPartialUpdate o job_jsToSql = inr (setCols, values) /\
    update id (DObj o) =
      Query (update_sql setCols ("$" ++ string_of_nat (length values + 1)))
            (app values [id]) k /\
    length values = length o /\
    nth_error (app values [id]) (length values) = Some id /\
    length (app values [id]) = length values + 1.
Proof.
  intros Ho Hg.
  exists (String.concat ", " (set_fragments o job_jsToSql)), (map snd o).
  eexists. split; [now apply sqlForPartialUpdate_nonempty|].
  split; [rewrite update_passes_guards by exact Hg; now apply update_body_nonempty|].
  split; [apply length_map|].
  split; [rewrite nth_error_app2, Nat.sub_diag by lia; reflexivity|].
  now rewrite length_app.
Qed.

Lemma update_id_placeholder_witness :
  [("title", JStr "New"); ("salary", JNum 999999)] <> [] /\
  exists setCols values k,
    sqlForPartialUpdate [("title", JStr "New"); ("salary", JNum 999999)] job_jsToSql =
      inr (setCols, values) /\
    update (JNum 7) (DObj [("title", JStr "New"); ("salary", JNum 999999)]) =
      Query (update_sql setCols ("$" ++ string_of_nat (length values + 1)))
            (app values [JNum 7]) k /\
    length values = length [("title", JStr "New"); ("salary", JNum 999999)] /\
    nth_error (app values [JNum 7]) (length values) = Some (JNum 7) /\
    length (app values [JNum 7]) = length values + 1.
Proof.
  split; [discriminate|].
  apply update_id_placeholder; [discriminate | reflexivity].
Defined.

(** C9: for a non-empty payload that passes the guards, [Job.update] issues
    its statement and, when it returns no row, throws NotFound after it; the
    builder only ever fails with BadRequest, a different condition. *)
Theorem update_not_found (id : jsval) (o : jsobj) :
  o <> [] ->
  (truthy (obj_get o "id") || truthy (obj_get o "companyHandle")) = false ->
  (exists sql vals k,
     update id (DObj o) = Query sql vals k /\
     k [] = Throw (NotFoundError ("No job with id of " ++ js_to_string id)) /\
     (forall row rows, k (row :: rows) = Ret row)) /\
  (forall p m e, sqlForPartialUpdate p m = inl e -> exists msg, e = BadRequestError msg) /\
  (forall m1 m2, NotFoundError m1 <> BadRequestError m2).
Proof.
  intros Ho Hg. split; [| split].
  - do 3 eexists. split.
    + rewrite update_passes_guards by exact Hg. now apply update_body_nonempty.
    + split; reflexivity.
  - intros p m e H. unfold sqlForPartialUpdate in H.
    destruct (obj_keys p); [| discriminate]. injection H as <-. now eexists.
  - discriminate.
Qed.

Lemma update_not_found_witness :
  [("title", JStr "new title")] <> [] /\
  (truthy (obj_get [("title", JStr "new title")] "id") ||
   truthy (obj_get [("title", JStr "new title")] "companyHandle")) = false /\
  exists sql vals k,
    update (JNum 999) (DObj [("title", JStr "new title")]) = Query sql vals k /\
    k [] = Throw (NotFoundError ("No job with id of " ++ js_to_string (JNum 999))) /\
    (forall row rows, k (row :: rows) = Ret row).
Proof.
  split; [discriminate|]. split; [reflexivity|].
  apply (update_not_found (JNum 999) [("title", JStr "new title")]);
    [discriminate | reflexivity].
Defined.

(** C10: the guards of [Job.update] test truthiness: [null] and [undefined]
    data throw BadRequest "Data is required"; a payload throws BadRequest
    for [id] or [companyHandle] only when that value is truthy, and otherwise
    goes on to the builder, so [{id: 0}] and [{companyHandle: ""}] reach it. *)
Theorem update_guards_truthiness (id : jsval) (o : jsobj) :
  update id DNull = Throw (BadRequestError "Data is required") /\
  update id DUndefined = Throw (BadRequestError "Data is required") /\
  ((truthy (obj_get o "id") || truthy (obj_get o "companyHandle")) = true ->
     update id (DObj o) =
       Throw (BadRequestError "Job id and companyHandle can not be changed")) /\
  ((truthy (obj_get o "id") || truthy (obj_get o "companyHandle")) = false ->
     update id (DObj o) = update_body id o) /\
  update id (DObj [("id", JNum 0)]) = update_body id [("id", JNum 0)] /\
  update id (DObj [("companyHandle", JStr "")]) = update_body id [("companyHandle", JStr "")] /\
  (exists sql vals k, update id (DObj [("id", JNum 0)]) = Query sql vals k) /\
  (exists sql vals k, update id (DObj [("companyHandle", JStr "")]) = Query sql vals k).
Proof.
  split; [reflexivity|]. split; [reflexivity|].
  split; [intro H; unfold update; now rewrite H|].
  split; [apply update_passes_guards|].
  split; [reflexivity|]. split; [reflexivity|].
  split; do 3 eexists; reflexivity.
Qed.

Lemma update_guards_truthiness_witness :
  (truthy (obj_get [("id", JNum 2)] "id") ||
   truthy (obj_get [("id", JNum 2)] "companyHandle")) = true /\
  update (JNum 1) (DObj [("id", JNum 2)]) =
    Throw (BadRequestError "Job id and companyHandle can not be changed").
Proof.
  split; [reflexivity|].
  apply (update_guards_truthiness (JNum 1) [("id", JNum 2)]). reflexivity.
Defined.

(** ** Further properties of the jobs model *)

(** [create] on a duplicate: when the duplicate check returns a row, it
    throws BadRequest naming the company handle and title, and the only
    statement issued is the check, bound to [[companyHandle, title]]: no
    insert is attempted. *)
Theorem create_duplicate_rejected (data : jsobj) (db : database) row rows :
  db create_check_sql [obj_get data "companyHandle"; obj_get data "title"] = row :: rows ->
  run db (create data) =
    (inl (BadRequestError ("Duplicate job: " ++ js_to_string (obj_get data "companyHandle") ++
                           ", " ++ js_to_string (obj_get data "title"))),
     [(create_check_sql, [obj_get data "companyHandle"; obj_get data "title"])]).
Proof. intro H. unfold create; cbn zeta. cbn [run]. now rewrite H. Qed.

Lemma create_duplicate_rejected_witness :
  ex_db_dup create_check_sql [obj_get ex_new_job "companyHandle"; obj_get ex_new_job "title"] =
    [("title", JStr "New Job")] :: [] /\
  run ex_db_dup (create ex_new_job) =
    (inl (BadRequestError ("Duplicate job: " ++ js_to_string (obj_get ex_new_job "companyHandle") ++
                           ", " ++ js_to_string (obj_get ex_new_job "title"))),
     [(create_check_sql, [obj_get ex_new_job "companyHandle"; obj_get ex_new_job "title"])]).
Proof.
  split; [vm_compute; reflexivity|].
  apply (create_duplicate_rejected ex_new_job ex_db_dup [("title", JStr "New Job")] []).
  vm_compute. reflexivity.
Defined.

(** [create] on a fresh job: when the duplicate check returns no row, it
    issues the check and then one insert bound to
    [[title, salary, equity, companyHandle]], and returns the first row the
    insert returns ([None] when it returns none). *)
Theorem create_inserts_when_fresh (data : jsobj) (db : database) :
  db create_check_sql [obj_get data "companyHandle"; obj_get data "title"] = [] ->
  run db (create data) =
    (inr (hd_error (db create_insert_sql [obj_get data "title"; obj_get data "salary";
                                         obj_get data "equity"; obj_get data "companyHandle"])),
     [(create_check_sql, [obj_get data "companyHandle"; obj_get data "title"]);
      (create_insert_sql, [obj_get data "title"; obj_get data "salary";
                           obj_get data "equity"; obj_get data "companyHandle"])]).
Proof. intro H. unfold create; cbn zeta. cbn [run]. now rewrite H. Qed.

Lemma create_inserts_when_fresh_witness :
  ex_db_empty create_check_sql
     [obj_get ex_new_job "companyHandle"; obj_get ex_new_job "title"] = [] /\
  run ex_db_empty (create ex_new_job) =
    (inr (hd_error (ex_db_empty create_insert_sql
                      [obj_get ex_new_job "title"; obj_get ex_new_job "salary";
                       obj_get ex_new_job "equity"; obj_get ex_new_job "companyHandle"])),
     [(create_check_sql, [obj_get ex_new_job "companyHandle"; obj_get ex_new_job "title"]);
      (create_insert_sql, [obj_get ex_new_job "title"; obj_get ex_new_job "salary";
                           obj_get ex_new_job "equity"; obj_get ex_new_job "companyHandle"])]).
Proof.
  split; [reflexivity|].
  apply (create_inserts_when_fresh ex_new_job ex_db_empty). reflexivity.
Defined.

(** [get] of a missing job: when the job query returns no row, it throws
    NotFound after that one statement, bound to [[id]], and never queries the
    companies. *)
Theorem get_not_found (id : jsval) (db : database) :
  db get_job_sql [id] = [] ->
  run db (get id) =
    (inl (NotFoundError ("No job with id of " ++ js_to_string id)), [(get_job_sql, [id])]).
Proof. intro H. unfold get. cbn [run]. now rewrite H. Qed.

Lemma get_not_found_witness :
  ex_db_empty get_job_sql [JNum 420] = [] /\
  run ex_db_empty (get (JNum 420)) =
    (inl (NotFoundError ("No job with id of " ++ js_to_string (JNum 420))),
     [(get_job_sql, [JNum 420])]).
Proof. split; [reflexivity|]. apply (get_not_found (JNum 420) ex_db_empty). reflexivity. Defined.

(** [get] of an existing job: the company query is bound to the job row's
    [company] value, and the result is the first job row with its [company]
    set to the first company row. *)
Theorem get_found (id : jsval) (db : database) job rows :
  db get_job_sql [id] = job :: rows ->
  run db (get id) =
    (inr {| gj_row := job;
            gj_company := hd_error (db get_company_sql [obj_get job "company"]) |},
     [(get_job_sql, [id]); (get_company_sql, [obj_get job "company"])]).
Proof. intro H. unfold get. cbn [run]. now rewrite H. Qed.

Lemma get_found_witness :
  ex_db_job get_job_sql [JNum 1] =
    ex_job_row :: [] /\
  run ex_db_job (get (JNum 1)) =
    (inr {| gj_row := ex_job_row;
            gj_company := hd_error (ex_db_job get_company_sql [obj_get ex_job_row "company"]) |},
     [(get_job_sql, [JNum 1]); (get_company_sql, [obj_get ex_job_row "company"])]).
Proof.
  split; [vm_compute; reflexivity|].
  apply (get_found (JNum 1) _ ex_job_row []). vm_compute. reflexivity.
Defined.

(** [remove] issues exactly one statement, bound to [[id]], and throws
    NotFound exactly when that statement returns no row. *)
Theorem remove_outcome (id : jsval) (db : database) :
  run db (remove id) =
    (match db remove_sql [id] with
     | [] => inl (NotFoundError ("No job: " ++ js_to_string id))
     | _ :: _ => inr tt
     end, [(remove_sql, [id])]).
Proof. unfold remove. cbn [run]. now destruct (db remove_sql [id]). Qed.

(** [update] throws BadRequest only before issuing any statement, and throws
    NotFound only after issuing exactly one statement, which returned no
    row. *)
Theorem update_error_timing (id : jsval) (d : data_arg) (db : database) :
  (forall msg, fst (run db (update id d)) = inl (BadRequestError msg) ->
     snd (run db (update id d)) = []) /\
  (forall msg, fst (run db (update id d)) = inl (NotFoundError msg) ->
     exists sql vals, snd (run db (update id d)) = [(sql, vals)] /\ db sql vals = []).
Proof.
  destruct d as [| | o].
  1,2: cbn [update run fst snd]; split; intros msg H; [reflexivity | discriminate].
  unfold update.
  destruct (truthy (obj_get o "id") || truthy (obj_get o "companyHandle")).
  { cbn [run fst snd]. split; intros msg H; [reflexivity | discriminate]. }
  unfold update_body, sqlForPartialUpdate.
  destruct (obj_keys o) as [|k ks].
  { cbn [run fst snd]. split; intros msg H; [reflexivity | discriminate]. }
  cbn [run]. destruct (db _ _) as [|row rows] eqn:Hdb; cbn [run fst snd];
    split; intros msg H; try discriminate.
  eauto.
Qed.

(** The [companyHandle] guard of [update] tests truthiness only: a payload
    whose [companyHandle] is falsy (and whose [id] is falsy) passes it, and
    the statement then sets the [company_handle] column, at the key's
    position, to that value. *)
Theorem update_writes_company_handle (id : jsval) (o : jsobj) i v :
  nth_error o i = Some ("companyHandle", v) ->
  (truthy (obj_get o "id") || truthy (obj_get o "companyHandle")) = false ->
  exists frags k,
    update id (DObj o) =
      Query (update_sql (String.concat ", " frags) ("$" ++ string_of_nat (length o + 1)))
            (app (map snd o) [id]) k /\
    nth_error frags i = Some (dq ++ "company_handle" ++ dq ++ "=$" ++ string_of_nat (S i)) /\
    nth_error (app (map snd o) [id]) i = Some v.
Proof.
  intros Hi Hg.
  assert (Ho : o <> []) by (intros ->; destruct i; discriminate).
  exists (set_fragments o job_jsToSql). eexists.
  split; [rewrite update_passes_guards by exact Hg;
          rewrite update_body_nonempty by exact Ho; now rewrite length_map|].
  split; [exact (set_fragments_nth _ _ _ _ _ Hi)|].
  rewrite nth_error_app1; [exact (nth_error_map_snd _ _ _ _ Hi)|].
  rewrite length_map. apply nth_error_Some. now rewrite Hi.
Qed.

Lemma update_writes_company_handle_witness :
  nth_error ex_payload_ch 1 = Some ("companyHandle", JStr "") /\
  (truthy (obj_get ex_payload_ch "id") ||
   truthy (obj_get ex_payload_ch "companyHandle")) = false /\
  exists frags k,
    update (JNum 1) (DObj ex_payload_ch) =
      Query (update_sql (String.concat ", " frags) ("$" ++ string_of_nat (length ex_payload_ch + 1)))
            (app (map snd ex_payload_ch) [JNum 1]) k /\
    nth_error frags 1 = Some (dq ++ "company_handle" ++ dq ++ "=$" ++ string_of_nat 2) /\
    nth_error (app (map snd ex_payload_ch) [JNum 1]) 1 = Some (JStr "").
Proof.
  split; [reflexivity|]. split; [reflexivity|].
  apply (update_writes_company_handle (JNum 1) ex_payload_ch 1 (JStr "")); reflexivity.
Defined.
